(** * Kodak Step printer driver (ESP32 library): packet protocol and print flow

    Shallow embedding of [KodakStepProtocol.cpp] (packet construction and
    response parsing) and of the print path of [KodakStepPrinter.cpp]
    ([printImage] and the helpers it calls).  A [uint8_t] is a [Z] in
    [0, 256); a 34-byte packet buffer is a [list Z]. *)

From Stdlib Require Import ZArith List String Bool Lia.
Import ListNotations.
Open Scope Z_scope.

(* ------------------------------------------------------------------ *)
(** ** Protocol constants ([KodakStepProtocol.h]) *)

Definition BTP_PACKET_SIZE : nat := 34.
Definition BTP_CHUNK_SIZE : nat := 4096.
Definition BTP_MIN_BATTERY_LEVEL : Z := 30.
Definition BTP_MAX_IMAGE_SIZE : nat := 2 * 1024 * 1024.

Definition BTP_START_1 : Z := 0x1B.
Definition BTP_START_2 : Z := 0x2A.
Definition BTP_IDENT_1 : Z := 0x43.
Definition BTP_IDENT_2 : Z := 0x41.

Definition BTP_CMD_GET_ACCESSORY_INFO : Z := 0x01.
Definition BTP_CMD_GET_PAGE_TYPE : Z := 0x0D.
Definition BTP_CMD_GET_BATTERY_LEVEL : Z := 0x0E.
Definition BTP_CMD_GET_PRINT_COUNT : Z := 0x0F.
Definition BTP_CMD_GET_AUTO_POWER_OFF : Z := 0x10.
Definition BTP_CMD_PRINT_READY : Z := 0x00.

Definition BTP_ERR_SUCCESS : Z := 0x00.
Definition BTP_ERR_NOT_CONNECTED : Z := 0xFE.

Definition BTP_FLAG_STANDARD_DEVICE : Z := 0x00.
Definition BTP_FLAG_SLIM_DEVICE : Z := 0x02.

(** The four magic bytes every packet starts with. *)
Definition magic : list Z := [BTP_START_1; BTP_START_2; BTP_IDENT_1; BTP_IDENT_2].

(* ------------------------------------------------------------------ *)
(** ** Buffers *)

(** [buffer[i] = v]: the store into an in-bounds index of a byte array.
    All indices used by the protocol code are below [BTP_PACKET_SIZE]. *)
Fixpoint store (buf : list Z) (i : nat) (v : Z) : list Z :=
  match buf, i with
  | [], _ => []
  | _ :: t, O => v :: t
  | h :: t, S k => h :: store t k v
  end.

(** [buffer[i]]: the read of an in-bounds index. *)
Definition at_ (buf : list Z) (i : nat) : Z := nth i buf 0.

(** [memset(buffer, 0, n)] on an [n]-byte buffer. *)
Definition memset0 (n : nat) : list Z := repeat 0 n.

(* ------------------------------------------------------------------ *)
(** ** Packet construction *)

Definition initPacketHeader (flags1 flags2 : Z) : list Z :=
  let b := memset0 BTP_PACKET_SIZE in
  let b := store b 0 BTP_START_1 in
  let b := store b 1 BTP_START_2 in
  let b := store b 2 BTP_IDENT_1 in
  let b := store b 3 BTP_IDENT_2 in
  let b := store b 4 flags1 in
  store b 5 flags2.

(** [initPacketHeader(buffer)] with the default flags [0x00, 0x00]. *)
Definition initPacketHeader_default : list Z := initPacketHeader 0x00 0x00.

Definition buildGetAccessoryInfoPacket (isSlim : bool) : list Z :=
  let b := initPacketHeader 0x00
             (if isSlim then BTP_FLAG_SLIM_DEVICE else BTP_FLAG_STANDARD_DEVICE) in
  let b := store b 6 BTP_CMD_GET_ACCESSORY_INFO in
  store b 7 0x00.

Definition buildGetBatteryLevelPacket : list Z :=
  let b := initPacketHeader_default in
  let b := store b 6 BTP_CMD_GET_BATTERY_LEVEL in
  store b 7 0x00.

Definition buildGetPageTypePacket : list Z :=
  let b := initPacketHeader_default in
  let b := store b 6 BTP_CMD_GET_PAGE_TYPE in
  store b 7 0x00.

Definition buildGetPrintCountPacket : list Z :=
  let b := initPacketHeader_default in
  let b := store b 6 BTP_CMD_PRINT_READY in
  store b 7 0x01.

Definition buildGetAutoPowerOffPacket : list Z :=
  let b := initPacketHeader_default in
  let b := store b 6 BTP_CMD_GET_AUTO_POWER_OFF in
  store b 7 0x00.

(** [imageSize] is a [uint32_t], [numCopies] a [uint8_t]. *)
Definition buildPrintReadyPacket (imageSize numCopies : Z) : list Z :=
  let b := initPacketHeader_default in
  let b := store b 6 BTP_CMD_PRINT_READY in
  let b := store b 7 0x00 in
  let b := store b 8 (Z.land (Z.shiftr imageSize 16) 0xFF) in
  let b := store b 9 (Z.land (Z.shiftr imageSize 8) 0xFF) in
  let b := store b 10 (Z.land imageSize 0xFF) in
  store b 11 numCopies.

Definition buildStartOfSendAck : list Z :=
  let b := initPacketHeader_default in
  let b := store b 6 0x01 in
  let b := store b 7 0x00 in
  store b 8 0x02.

Definition buildEndOfReceivedAck : list Z :=
  let b := initPacketHeader_default in
  let b := store b 6 0x01 in
  let b := store b 7 0x01 in
  store b 8 0x02.

Definition buildErrorMessageAck (errorCode : Z) : list Z :=
  let b := initPacketHeader_default in
  let b := store b 6 0x01 in
  let b := store b 7 0x00 in
  store b 8 errorCode.

(** The nine packet builders of [KodakStepProtocol], with their arguments. *)
Inductive Builder :=
| GetAccessoryInfo (isSlim : bool)
| GetBatteryLevel
| GetPageType
| GetPrintCount
| GetAutoPowerOff
| PrintReady (imageSize numCopies : Z)
| StartOfSendAck
| EndOfReceivedAck
| ErrorMessageAck (errorCode : Z).

Definition build (c : Builder) : list Z :=
  match c with
  | GetAccessoryInfo s => buildGetAccessoryInfoPacket s
  | GetBatteryLevel => buildGetBatteryLevelPacket
  | GetPageType => buildGetPageTypePacket
  | GetPrintCount => buildGetPrintCountPacket
  | GetAutoPowerOff => buildGetAutoPowerOffPacket
  | PrintReady sz cp => buildPrintReadyPacket sz cp
  | StartOfSendAck => buildStartOfSendAck
  | EndOfReceivedAck => buildEndOfReceivedAck
  | ErrorMessageAck ec => buildErrorMessageAck ec
  end.

(** The byte positions the builders' comments document: the header
    (magic 0-3, flags 4-5, command 6, sub-command 7), and the payload:
    size and copies (8-11) for PrintReady, the status byte 8 for the
    three acknowledgements. *)
Definition documented_field (c : Builder) (i : nat) : bool :=
  (i <? 8)%nat ||
  match c with
  | PrintReady _ _ => (i <? 12)%nat
  | StartOfSendAck | EndOfReceivedAck | ErrorMessageAck _ => (i =? 8)%nat
  | _ => false
  end.

(* ------------------------------------------------------------------ *)
(** ** Response parsing *)

(** Result of [parseResponse]: the value stored through [errorCode]
    ([None] when nothing is stored), the 25 bytes copied to [dataOut]
    ([None] when [dataOut] is null), and the return value. *)
Record ParseResult := {
  pr_errorCode : option Z;
  pr_dataOut : option (list Z);
  pr_ret : bool
}.

(** [errorCode_nonnull] / [dataOut_nonnull] say whether the output
    pointers are non-null. *)
Definition parseResponse (response : list Z)
    (errorCode_nonnull dataOut_nonnull : bool) : ParseResult :=
  if negb errorCode_nonnull then
    {| pr_errorCode := None; pr_dataOut := None; pr_ret := false |}
  else if negb (at_ response 0 =? BTP_START_1) ||
          negb (at_ response 1 =? BTP_START_2) ||
          negb (at_ response 2 =? BTP_IDENT_1) ||
          negb (at_ response 3 =? BTP_IDENT_2) then
    {| pr_errorCode := Some BTP_ERR_NOT_CONNECTED; pr_dataOut := None;
       pr_ret := false |}
  else
    let ec := at_ response 8 in
    {| pr_errorCode := Some ec;
       pr_dataOut := if dataOut_nonnull then Some (firstn 25 (skipn 9 response))
                     else None;
       pr_ret := ec =? BTP_ERR_SUCCESS |}.

(* ------------------------------------------------------------------ *)
(** ** The printer object ([KodakStepPrinter]) *)

Record PrinterStatus := {
  battery_level : Z;
  error_code : Z;
  is_slim_device : bool;
  is_connected : bool
}.

(** The Bluetooth link as seen by the driver: whether [btSerial] exists,
    whether [btSerial->connected()] holds, how many bytes a [write] of a
    buffer accepts, and the 34 bytes [receiveResponse] collects given
    everything written so far ([None]: the 5 s timeout expires first). *)
Record Link := {
  bt_present : bool;
  bt_connected : bool;
  bt_write : list Z -> nat;
  bt_answer : list (list Z) -> option (list Z)
}.

(** The driver's mutable state plus the transport trace: every buffer
    handed to [btSerial->write], as far as it was written, oldest first. *)
Record World := {
  status : PrinterStatus;
  lastError : string;
  writes : list (list Z)
}.

Module StateM.
Definition M (A : Type) : Type := World -> A * World.
Definition ret {A} (a : A) : M A := fun w => (a, w).
Definition bind {A B} (m : M A) (k : A -> M B) : M B :=
    fun w => let (a, w') := m w in k a w'.
Definition get : M World := fun w => (w, w).
Definition put (w : World) : M unit := fun _ => (tt, w).
End StateM.
Import StateM.

Notation "x <- m ;; k" := (bind m (fun x => k))
  (at level 61, m at next level, right associativity).
Notation "m ;;; k" := (bind m (fun _ => k)) (at level 61, right associativity).

Definition set_status (f : PrinterStatus -> PrinterStatus) : M unit :=
  w <- get ;;
  put {| status := f (status w); lastError := lastError w; writes := writes w |}.

Definition set_is_connected (b : bool) (s : PrinterStatus) : PrinterStatus :=
  {| battery_level := battery_level s; error_code := error_code s;
     is_slim_device := is_slim_device s; is_connected := b |}.

Definition set_battery_level (v : Z) (s : PrinterStatus) : PrinterStatus :=
  {| battery_level := v; error_code := error_code s;
     is_slim_device := is_slim_device s; is_connected := is_connected s |}.

Definition set_error_code (v : Z) (s : PrinterStatus) : PrinterStatus :=
  {| battery_level := battery_level s; error_code := v;
     is_slim_device := is_slim_device s; is_connected := is_connected s |}.

(** [strncpy] into [char lastError[128]]: at most 127 characters kept. *)
Definition setError (msg : string) : M unit :=
  w <- get ;;
  put {| status := status w; lastError := substring 0 127 msg; writes := writes w |}.

Definition log_write (bytes : list Z) : M unit :=
  w <- get ;;
  put {| status := status w; lastError := lastError w; writes := writes w ++ [bytes] |}.

(** Text of [KodakStepProtocol::getErrorString]. *)
Definition getErrorString (errorCode : Z) : string :=
  match errorCode with
  | 0x00 => "Success" | 0x01 => "Paper jam" | 0x02 => "Out of paper"
  | 0x03 => "Printer cover open" | 0x04 => "Wrong paper type"
  | 0x05 => "Battery too low" | 0x06 => "Printer overheating"
  | 0x07 => "Printer cooling" | 0x08 => "Paper misfeed"
  | 0x09 => "Printer busy" | 0xFE => "Not connected"
  | _ => "Unknown error"
  end%string.

Section Printer.

Variable link : Link.

Definition isConnected : M bool :=
  w <- get ;;
  ret (is_connected (status w) && bt_present link && bt_connected link).

(** [sendCommand(command, length, skipConnectionCheck)]; [command] holds
    (at least) the [length] bytes to send. *)
Definition sendCommand (command : list Z) (length : nat) (skipConnectionCheck : bool)
    : M bool :=
  if negb (bt_present link) then ret false
  else if negb skipConnectionCheck && negb (bt_connected link) then
    set_status (set_is_connected false) ;;; ret false
  else
    let data := firstn length command in
    let written := bt_write link data in
    log_write (firstn written data) ;;;
    ret (Nat.eqb written length).

Definition receiveResponse : M (option (list Z)) :=
  if negb (bt_present link) || negb (bt_connected link) then
    set_status (set_is_connected false) ;;; ret None
  else
    w <- get ;;
    ret (bt_answer link (writes w)).

Definition sendAndReceive (command : list Z) : M (option (list Z)) :=
  ok <- sendCommand command BTP_PACKET_SIZE false ;;
  if ok then receiveResponse else ret None.

(** [getBatteryLevel(&level)] with [rawResponse == nullptr]; [Some level]
    stands for a [true] return with [level] stored. *)
Definition getBatteryLevel : M (option Z) :=
  c <- isConnected ;;
  if negb c then setError "Not connected to printer" ;;; ret None
  else
    w <- get ;;
    let command := buildGetAccessoryInfoPacket (is_slim_device (status w)) in
    r <- sendAndReceive command ;;
    match r with
    | None => setError "Failed to get battery level" ;;; ret None
    | Some response =>
        let level := at_ response 12 in
        set_status (set_battery_level level) ;;; ret (Some level)
    end.

Definition checkPaperStatus : M bool :=
  c <- isConnected ;;
  if negb c then setError "Not connected to printer" ;;; ret false
  else
    r <- sendAndReceive buildGetPageTypePacket ;;
    match r with
    | None => setError "Failed to check paper status" ;;; ret false
    | Some response =>
        let p := parseResponse response true false in
        let errorCode := match pr_errorCode p with Some e => e | None => 0 end in
        if negb (pr_ret p) then
          setError (getErrorString errorCode) ;;;
          set_status (set_error_code errorCode) ;;; ret false
        else ret true
    end.

(** The [while (offset < size)] loop of [transferImageData]; [fuel]
    bounds the number of iterations (each one advances [offset]). *)
Fixpoint transfer_loop (fuel : nat) (data : list Z) (size offset : nat) : M bool :=
  match fuel with
  | O => ret true
  | S fuel' =>
      if (offset <? size)%nat then
        let remaining := (size - offset)%nat in
        let chunkSize := if (remaining <? BTP_CHUNK_SIZE)%nat then remaining
                         else BTP_CHUNK_SIZE in
        ok <- sendCommand (skipn offset data) chunkSize true ;;
        if negb ok then ret false
        else transfer_loop fuel' data size (offset + chunkSize)
      else ret true
  end.

(** [transferImageData(data, size, nullptr)]: the progress callback is
    null on the paths considered here; delays and yields are omitted. *)
Definition transferImageData (data : list Z) (size : nat) : M bool :=
  c <- isConnected ;;
  if negb c then ret false
  else transfer_loop size data size 0.

(** [printImage(jpegData, dataSize, numCopies, nullptr)]; [jpegData] is
    [None] for a null pointer, otherwise the bytes it points to. *)
Definition printImage (jpegData : option (list Z)) (dataSize : nat) (numCopies : Z)
    : M bool :=
  match jpegData with
  | None => setError "Image data cannot be null" ;;; ret false
  | Some data =>
    if (dataSize =? 0)%nat then setError "Image data size cannot be zero" ;;; ret false
    else if (BTP_MAX_IMAGE_SIZE <? dataSize)%nat then
      setError "Image data exceeds maximum size (2MB)" ;;; ret false
    else
    c <- isConnected ;;
    if negb c then setError "Not connected to printer" ;;; ret false
    else
    b <- getBatteryLevel ;;
    match b with
    | None => ret false
    | Some battery =>
      if battery <? BTP_MIN_BATTERY_LEVEL then
        setError "Battery too low to print" ;;; ret false
      else
      paper <- checkPaperStatus ;;
      if negb paper then ret false
      else
      let command := buildPrintReadyPacket (Z.of_nat dataSize) numCopies in
      r <- sendAndReceive command ;;
      match r with
      | None => setError "Failed to send PRINT_READY" ;;; ret false
      | Some response =>
        let p := parseResponse response true false in
        let errorCode := match pr_errorCode p with Some e => e | None => 0 end in
        if negb (pr_ret p) then
          setError (getErrorString errorCode) ;;;
          set_status (set_error_code errorCode) ;;; ret false
        else
        t <- transferImageData data dataSize ;;
        if negb t then setError "Failed to transfer image data" ;;; ret false
        else ret true
      end
    end
  end.

End Printer.

(* ------------------------------------------------------------------ *)
(** ** Response field accessors ([KodakStepProtocol.cpp]) *)

(** [(response[8] << 8) | response[9]] converted to [uint16_t]. *)
Definition parsePrintCount (response : list Z) : Z :=
  Z.land (Z.lor (Z.shiftl (at_ response 8) 8) (at_ response 9)) 0xFFFF.

(* ------------------------------------------------------------------ *)
(** ** Initialisation and disconnection ([KodakStepPrinter.cpp]) *)

Section Queries.

Variable link : Link.

(** [disconnect()]; the [btSerial->disconnect()] call on the link is not
    part of the write trace. *)
Definition disconnect : M unit :=
  w <- get ;;
  if bt_present link && is_connected (status w) then
    set_status (set_is_connected false)
  else ret tt.

Definition set_is_slim_device (b : bool) (s : PrinterStatus) : PrinterStatus :=
  {| battery_level := battery_level s; error_code := error_code s;
     is_slim_device := b; is_connected := is_connected s |}.

(** [initialize(isSlimDevice, nullptr)]. *)
Definition initialize (isSlimDevice : bool) : M bool :=
  c <- isConnected link ;;
  if negb c then setError "Not connected to printer" ;;; ret false
  else
    r <- sendAndReceive link (buildGetAccessoryInfoPacket isSlimDevice) ;;
    match r with
    | None => setError "Failed to get accessory info" ;;; ret false
    | Some response =>
        let p := parseResponse response true false in
        let errorCode := match pr_errorCode p with Some e => e | None => 0 end in
        if negb (pr_ret p) then
          setError (getErrorString errorCode) ;;;
          set_status (set_error_code errorCode) ;;; ret false
        else
          set_status (set_is_slim_device isSlimDevice) ;;;
          set_status (set_error_code BTP_ERR_SUCCESS) ;;; ret true
    end.

End Queries.

(** The status codes [getErrorString] has a message for. *)
Definition known_error_code (x : Z) : bool :=
  ((0 <=? x) && (x <=? 9)) || (x =? BTP_ERR_NOT_CONNECTED).

(* ------------------------------------------------------------------ *)
(** ** Sample links and states *)

(** A 34-byte reply with the magic header, status byte 8 = [status_byte]
    and byte 12 (battery percentage) = [battery]. *)
Definition reply (status_byte battery : Z) : list Z :=
  magic ++ [0; 0; 0; 0; status_byte; 0; 0; 0; battery] ++ repeat 0 21.

(** A link that accepts every write in full and answers every query with
    the given reply. *)
Definition answering_link (answer : list Z) : Link :=
  {| bt_present := true; bt_connected := true;
     bt_write := fun l => List.length l;
     bt_answer := fun _ => Some answer |}.

(** A printer object after [connect], standard (non-slim) device. *)
Definition connected_world : World :=
  {| status := {| battery_level := 0; error_code := 0;
                  is_slim_device := false; is_connected := true |};
     lastError := ""%string; writes := [] |}.

(** JPEG start ([FF D8]) and end ([FF D9]) markers of a [size]-byte buffer. *)
Definition jpeg_markers_ok (data : list Z) (size : nat) : bool :=
  (2 <=? size)%nat &&
  (at_ data 0 =? 0xFF) && (at_ data 1 =? 0xD8) &&
  (at_ data (size - 2) =? 0xFF) && (at_ data (size - 1) =? 0xD9).

(* ================================================================== *)
(** * Properties *)

Ltac decide_cmps :=
  repeat match goal with
  | |- context [?a <? ?b] => destruct (Z.ltb_spec a b); try lia
  | |- context [?a <=? ?b] => destruct (Z.leb_spec a b); try lia
  end.

Ltac bool_simpl :=
  rewrite ?andb_true_r, ?andb_false_r, ?orb_false_r, ?orb_false_l; simpl.

(** The three size bytes of PrintReady recombine to any 24-bit size. *)
Lemma size_bytes_recompose (s : Z) :
  0 <= s <= 2^24 - 1 ->
  Z.lor (Z.lor (Z.shiftl (Z.land (Z.shiftr s 16) 0xFF) 16)
               (Z.shiftl (Z.land (Z.shiftr s 8) 0xFF) 8))
        (Z.land s 0xFF) = s.
Proof.
  intros Hs.
  change 0xFF with (Z.ones 8).
  apply Z.bits_inj'; intros n Hn.
  assert (Hhigh : forall m, 24 <= m -> Z.testbit s m = false).
  { intros m Hm. rewrite <- (Z.mod_small s (2^24)) by lia.
    apply Z.mod_pow2_bits_high; lia. }
  rewrite !Z.lor_spec, !Z.shiftl_spec, !Z.land_spec, !Z.testbit_ones by lia.
  destruct (Z.lt_ge_cases n 8) as [H8|H8].
  - rewrite (Z.testbit_neg_r _ (n - 16)), (Z.testbit_neg_r _ (n - 8)) by lia.
    decide_cmps. now bool_simpl.
  - destruct (Z.lt_ge_cases n 16) as [H16|H16].
    + rewrite (Z.testbit_neg_r _ (n - 16)), Z.shiftr_spec by lia.
      decide_cmps. bool_simpl.
      now replace (n - 8 + 8) with n by lia.
    + rewrite !Z.shiftr_spec by lia. decide_cmps; bool_simpl.
      * now replace (n - 16 + 16) with n by lia.
      * symmetry; apply Hhigh; lia.
Qed.

(** C1: for every size [s <= 2^24 - 1] and every copies value, bytes
    8-10 of the PrintReady packet recombine big-endian to [s] and byte 11
    is the copies value; for size 50000 and one copy, bytes 0-15 are
    [1B 2A 43 41 00 00 00 00 00 C3 50 01 00 00 00 00] and bytes 16-33
    are zero. *)
Theorem printReady_size_and_copies (s copies : Z) :
  0 <= s <= 2^24 - 1 ->
  Z.lor (Z.lor (Z.shiftl (at_ (buildPrintReadyPacket s copies) 8) 16)
               (Z.shiftl (at_ (buildPrintReadyPacket s copies) 9) 8))
        (at_ (buildPrintReadyPacket s copies) 10) = s /\
  at_ (buildPrintReadyPacket s copies) 11 = copies /\
  firstn 16 (buildPrintReadyPacket 50000 1) =
    [0x1B; 0x2A; 0x43; 0x41; 0x00; 0x00; 0x00; 0x00;
     0x00; 0xC3; 0x50; 0x01; 0x00; 0x00; 0x00; 0x00] /\
  skipn 16 (buildPrintReadyPacket 50000 1) = repeat 0 18.
Proof.
  intros Hs. split; [| split; [| split]].
  - exact (size_bytes_recompose s Hs).
  - reflexivity.
  - vm_compute. reflexivity.
  - vm_compute. reflexivity.
Qed.

Lemma printReady_size_and_copies_witness :
  (0 <= 50000 <= 2^24 - 1) /\
  Z.lor (Z.lor (Z.shiftl (at_ (buildPrintReadyPacket 50000 1) 8) 16)
               (Z.shiftl (at_ (buildPrintReadyPacket 50000 1) 9) 8))
        (at_ (buildPrintReadyPacket 50000 1) 10) = 50000.
Proof.
  assert (H : 0 <= 50000 <= 2^24 - 1) by lia.
  split; [exact H | apply (printReady_size_and_copies 50000 1 H)].
Defined.

(** C2: every packet builder, for every argument, yields a 34-byte
    buffer starting with the magic [1B 2A 43 41] whose bytes outside the
    fields documented for that command are zero. *)
Theorem build_shape (c : Builder) :
  List.length (build c) = BTP_PACKET_SIZE /\
  firstn 4 (build c) = magic /\
  (forall i : nat, (i < BTP_PACKET_SIZE)%nat -> documented_field c i = false ->
     at_ (build c) i = 0).
Proof.
  split; [| split].
  - destruct c; reflexivity.
  - destruct c; reflexivity.
  - intros i Hi Hd. unfold BTP_PACKET_SIZE in Hi.
    destruct c;
      do 34 (destruct i as [|i]; [first [discriminate Hd | reflexivity] |]);
      lia.
Qed.

Lemma build_shape_witness :
  (20 < BTP_PACKET_SIZE)%nat /\ documented_field (PrintReady 50000 1) 20%nat = false /\
  at_ (build (PrintReady 50000 1)) 20%nat = 0.
Proof.
  assert (H1 : (20 < BTP_PACKET_SIZE)%nat) by (unfold BTP_PACKET_SIZE; lia).
  assert (H2 : documented_field (PrintReady 50000 1) 20%nat = false) by reflexivity.
  split; [exact H1 | split; [exact H2 |]].
  exact (proj2 (proj2 (build_shape (PrintReady 50000 1))) 20%nat H1 H2).
Defined.

(** C3: on a 34-byte response, [parseResponse] (with a non-null error
    pointer) takes the header as valid exactly when bytes 0-3 are the magic
    [1B 2A 43 41]; then the reported error code is byte 8 (and the call
    succeeds iff it is 0); otherwise the reported error code is 0xFE
    (NotConnected) and the call fails. *)
Theorem parseResponse_header_and_error (response : list Z) (dataOut_nonnull : bool) :
  List.length response = BTP_PACKET_SIZE ->
  (firstn 4 response = magic ->
     pr_errorCode (parseResponse response true dataOut_nonnull) = Some (at_ response 8) /\
     pr_ret (parseResponse response true dataOut_nonnull) = (at_ response 8 =? 0)) /\
  (firstn 4 response <> magic ->
     pr_errorCode (parseResponse response true dataOut_nonnull) = Some BTP_ERR_NOT_CONNECTED /\
     pr_ret (parseResponse response true dataOut_nonnull) = false).
Proof.
  intros Hlen.
  destruct response as [|b0 [|b1 [|b2 [|b3 rest]]]]; try discriminate Hlen.
  unfold parseResponse, at_, magic; simpl.
  destruct (Z.eqb_spec b0 BTP_START_1), (Z.eqb_spec b1 BTP_START_2),
           (Z.eqb_spec b2 BTP_IDENT_1), (Z.eqb_spec b3 BTP_IDENT_2);
    subst; simpl; split; intros H;
    solve [ split; reflexivity
          | exfalso; apply H; reflexivity
          | injection H; intros; congruence ].
Qed.

Lemma parseResponse_header_and_error_witness :
  List.length (magic ++ repeat 0 30) = BTP_PACKET_SIZE /\
  pr_errorCode (parseResponse (magic ++ repeat 0 30) true false) = Some 0.
Proof.
  assert (H : List.length (magic ++ repeat 0 30) = BTP_PACKET_SIZE) by reflexivity.
  split; [exact H |].
  exact (proj1 (proj1 (parseResponse_header_and_error _ false H) eq_refl)).
Defined.

Lemma build_length (c : Builder) : List.length (build c) = BTP_PACKET_SIZE.
Proof. destruct c; reflexivity. Qed.

Lemma isConnected_run (link : Link) (w : World) :
  isConnected link w =
  (is_connected (status w) && bt_present link && bt_connected link, w).
Proof. reflexivity. Qed.

(** A query that gets its reply has written the whole packet and left
    the status and the last error alone. *)
Lemma sendAndReceive_some (link : Link) (cmd r : list Z) (w w' : World) :
  List.length cmd = BTP_PACKET_SIZE ->
  sendAndReceive link cmd w = (Some r, w') ->
  w' = {| status := status w; lastError := lastError w; writes := writes w ++ [cmd] |}.
Proof.
  intros Hlen H.
  unfold sendAndReceive, sendCommand, receiveResponse, bind, ret, log_write,
    get, put, set_status in H.
  rewrite <- Hlen, firstn_all in H.
  destruct (bt_present link); cbn in H; [| discriminate H].
  destruct (bt_connected link); cbn in H; [| discriminate H].
  destruct (Nat.eqb_spec (bt_write link cmd) (List.length cmd)) as [Hw|Hw];
    cbn in H; [| discriminate H].
  rewrite Hw, firstn_all in H.
  destruct (bt_answer link _); cbn in H; [| discriminate H].
  now injection H as _ <-.
Qed.

(** A successful battery refresh writes exactly the GetAccessoryInfo
    query, and changes neither the slim flag nor the connection flag. *)
Lemma getBatteryLevel_some (link : Link) (w w' : World) (b : Z) :
  getBatteryLevel link w = (Some b, w') ->
  writes w' = writes w ++ [buildGetAccessoryInfoPacket (is_slim_device (status w))] /\
  is_slim_device (status w') = is_slim_device (status w) /\
  is_connected (status w') = is_connected (status w).
Proof.
  intros H. unfold getBatteryLevel, bind at 1 in H. rewrite isConnected_run in H.
  destruct (is_connected (status w) && bt_present link && bt_connected link);
    cbn [negb] in H; [| cbn in H; discriminate H].
  unfold bind at 1, get in H. cbn beta iota zeta in H.
  unfold bind at 1 in H.
  destruct (sendAndReceive link (buildGetAccessoryInfoPacket (is_slim_device (status w))) w)
    as [[r|] w1] eqn:Hs; [| cbn in H; discriminate H].
  apply sendAndReceive_some in Hs; [| exact (build_length (GetAccessoryInfo _))].
  subst w1. cbn in H. injection H as _ <-. cbn. auto.
Qed.

Lemma checkPaperStatus_true (link : Link) (w w' : World) :
  checkPaperStatus link w = (true, w') ->
  writes w' = writes w ++ [buildGetPageTypePacket] /\ status w' = status w.
Proof.
  intros H. unfold checkPaperStatus, bind at 1 in H. rewrite isConnected_run in H.
  destruct (is_connected (status w) && bt_present link && bt_connected link);
    cbn [negb] in H; [| cbn in H; discriminate H].
  unfold bind at 1 in H.
  destruct (sendAndReceive link buildGetPageTypePacket w) as [[r|] w1] eqn:Hs;
    [| cbn in H; discriminate H].
  apply sendAndReceive_some in Hs; [| exact (build_length GetPageType)].
  subst w1. cbn beta iota zeta in H.
  destruct (pr_ret (parseResponse r true false)); cbn in H; [| discriminate H].
  injection H as <-. cbn. auto.
Qed.

Lemma firstn_plus (a b : nat) (l : list Z) :
  firstn (a + b) l = firstn a l ++ firstn b (skipn a l).
Proof.
  revert l; induction a as [|a IH]; intros [|x l]; cbn; try reflexivity.
  - now rewrite firstn_nil.
  - now rewrite IH.
Qed.

(** The chunk loop, when it completes, has written consecutive chunks of
    at most [BTP_CHUNK_SIZE] bytes that together are the bytes from
    [offset] to [size]. *)
Lemma transfer_loop_true (link : Link) (data : list Z) (size : nat) :
  forall fuel offset w w',
  (size - offset <= fuel)%nat ->
  transfer_loop link fuel data size offset w = (true, w') ->
  exists chunks,
    writes w' = writes w ++ chunks /\
    List.concat chunks = firstn (size - offset) (skipn offset data) /\
    Forall (fun c => List.length c <= BTP_CHUNK_SIZE)%nat chunks /\
    status w' = status w.
Proof.
  induction fuel as [|fuel IH]; intros offset w w' Hf H.
  - cbn in H. injection H as <-. exists []. rewrite app_nil_r.
    replace (size - offset)%nat with O by lia. auto.
  - cbn [transfer_loop] in H.
    destruct (Nat.ltb_spec offset size) as [Hlt|Hge].
    2:{ injection H as <-. exists []. rewrite app_nil_r.
        replace (size - offset)%nat with O by lia. auto. }
    set (chunk := if (size - offset <? BTP_CHUNK_SIZE)%nat then (size - offset)%nat
                  else BTP_CHUNK_SIZE) in H.
    assert (Hc : (chunk <= size - offset /\ chunk <= BTP_CHUNK_SIZE /\ 0 < chunk)%nat).
    { subst chunk. destruct (Nat.ltb_spec (size - offset) BTP_CHUNK_SIZE);
        unfold BTP_CHUNK_SIZE in *; lia. }
    unfold bind at 1, sendCommand in H.
    destruct (bt_present link); cbn in H; [| discriminate H].
    unfold bind, log_write, get, put, ret in H. cbn in H.
    destruct (Nat.eqb_spec (bt_write link (firstn chunk (skipn offset data))) chunk)
      as [Hw|Hw]; cbn in H; [| discriminate H].
    apply IH in H; [| lia].
    destruct H as (chunks & Hws & Hcat & Hall & Hst).
    exists (firstn chunk (skipn offset data) :: chunks).
    cbn in Hws, Hst. rewrite Hw, firstn_firstn, Nat.min_id in Hws.
    split; [rewrite Hws, <- app_assoc; reflexivity |].
    split; [| split; [constructor; [rewrite length_firstn; lia | exact Hall] | exact Hst]].
    cbn [List.concat]. rewrite Hcat.
    replace (skipn (offset + chunk) data) with (skipn chunk (skipn offset data))
      by (rewrite skipn_skipn; f_equal; lia).
    rewrite <- firstn_plus. f_equal. lia.
Qed.

(** C4: once the input checks pass, a print whose battery refresh reports
    a level below 30 fails with "Battery too low to print"; the only
    transport write of the call is the battery query (GetAccessoryInfo),
    so neither a PrintReady packet nor any image chunk is written. *)
Theorem printImage_battery_too_low (link : Link) (w0 w1 : World) (data : list Z)
    (dataSize : nat) (numCopies battery : Z) :
  (0 < dataSize <= BTP_MAX_IMAGE_SIZE)%nat ->
  fst (isConnected link w0) = true ->
  getBatteryLevel link w0 = (Some battery, w1) ->
  battery < BTP_MIN_BATTERY_LEVEL ->
  exists w',
    printImage link (Some data) dataSize numCopies w0 = (false, w') /\
    lastError w' = "Battery too low to print"%string /\
    writes w' = writes w0 ++ [buildGetAccessoryInfoPacket (is_slim_device (status w0))] /\
    (forall sz cp, buildGetAccessoryInfoPacket (is_slim_device (status w0))
                   <> buildPrintReadyPacket sz cp).
Proof.
  intros Hsz Hc Hb Hlow.
  destruct (getBatteryLevel_some _ _ _ _ Hb) as [Hw _].
  rewrite isConnected_run in Hc; cbn in Hc.
  unfold printImage.
  replace ((dataSize =? 0)%nat) with false by (symmetry; apply Nat.eqb_neq; lia).
  replace ((BTP_MAX_IMAGE_SIZE <? dataSize)%nat) with false
    by (symmetry; apply Nat.ltb_ge; lia).
  unfold bind at 1. rewrite isConnected_run, Hc. cbn -[getBatteryLevel].
  unfold bind at 1. rewrite Hb.
  replace (battery <? BTP_MIN_BATTERY_LEVEL) with true
    by (symmetry; apply Z.ltb_lt; exact Hlow).
  eexists; split; [reflexivity |]. cbn. split; [reflexivity | split; [exact Hw |]].
  intros sz cp Heq. apply (f_equal (fun p => at_ p 6)) in Heq.
  destruct (is_slim_device (status w0)); discriminate Heq.
Qed.

Lemma printImage_battery_too_low_witness :
  exists w',
    printImage (answering_link (reply 0 20)) (Some [0xFF; 0xD8; 0xFF; 0xD9]) 4 1
      connected_world = (false, w') /\
    lastError w' = "Battery too low to print"%string /\
    writes w' = writes connected_world ++ [buildGetAccessoryInfoPacket false] /\
    (forall sz cp, buildGetAccessoryInfoPacket false <> buildPrintReadyPacket sz cp).
Proof.
  apply (printImage_battery_too_low (answering_link (reply 0 20)) connected_world
           (snd (getBatteryLevel (answering_link (reply 0 20)) connected_world))
           [0xFF; 0xD8; 0xFF; 0xD9] 4 1 20).
  - unfold BTP_MAX_IMAGE_SIZE; lia.
  - reflexivity.
  - vm_compute. reflexivity.
  - vm_compute. reflexivity.
Defined.

(** C5 (as stated): [printImage] accepts a three-byte buffer that carries
    neither JPEG marker and sends it to the printer. *)
Lemma printImage_accepts_non_jpeg :
  jpeg_markers_ok [0; 0; 0] 3 = false /\
  printImage (answering_link (reply 0 100)) (Some [0; 0; 0]) 3 1 connected_world =
    (true, {| status := {| battery_level := 100; error_code := 0;
                           is_slim_device := false; is_connected := true |};
              lastError := ""%string;
              writes := [buildGetAccessoryInfoPacket false; buildGetPageTypePacket;
                         buildPrintReadyPacket 3 1; [0; 0; 0]] |}).
Proof. split; vm_compute; reflexivity. Qed.

(** C5 (amended): [printImage] rejects a null buffer, a zero size and a
    size above 2 MiB, returning [false] with the error message of the
    check that failed, before any transport write and with the status
    untouched; it does not check the JPEG markers.  When it succeeds, the transport
    received the battery query, the page-type query, the PrintReady
    packet carrying [dataSize] and the copies, then chunks of at most
    4096 bytes whose concatenation is the first [dataSize] input bytes. *)
Theorem printImage_validation_and_verbatim_transfer :
  (forall link w jpegData dataSize numCopies,
     (jpegData = None \/ dataSize = 0 \/ BTP_MAX_IMAGE_SIZE < dataSize)%nat ->
     printImage link jpegData dataSize numCopies w =
       (false,
        {| status := status w;
           lastError :=
             match jpegData with
             | None => "Image data cannot be null"%string
             | Some _ => if (dataSize =? 0)%nat then "Image data size cannot be zero"%string
                         else "Image data exceeds maximum size (2MB)"%string
             end;
           writes := writes w |})) /\
  (forall link w w' data dataSize numCopies,
     printImage link (Some data) dataSize numCopies w = (true, w') ->
     exists chunks,
       writes w' = writes w ++
         [buildGetAccessoryInfoPacket (is_slim_device (status w));
          buildGetPageTypePacket;
          buildPrintReadyPacket (Z.of_nat dataSize) numCopies] ++ chunks /\
       List.concat chunks = firstn dataSize data /\
       Forall (fun c => List.length c <= BTP_CHUNK_SIZE)%nat chunks).
Proof.
  split.
  - intros link w [data|] dataSize numCopies Hrej; [| reflexivity].
    destruct Hrej as [Hn | [H0 | Hbig]]; [discriminate Hn | subst; reflexivity |].
    unfold printImage.
    destruct (dataSize =? 0)%nat; [reflexivity |].
    replace ((BTP_MAX_IMAGE_SIZE <? dataSize)%nat) with true
      by (symmetry; apply Nat.ltb_lt; exact Hbig).
    reflexivity.
  - intros link w w' data dataSize numCopies H.
    unfold printImage in H.
    destruct (dataSize =? 0)%nat; [cbn in H; discriminate H |].
    destruct (BTP_MAX_IMAGE_SIZE <? dataSize)%nat; [cbn in H; discriminate H |].
    unfold bind at 1 in H. rewrite isConnected_run in H.
    destruct (is_connected (status w) && bt_present link && bt_connected link);
      cbn [negb] in H; [| cbn in H; discriminate H].
    unfold bind at 1 in H.
    destruct (getBatteryLevel link w) as [[b|] w1] eqn:Eb; [| cbn in H; discriminate H].
    apply getBatteryLevel_some in Eb as (Hw1 & _ & _).
    cbn beta iota in H.
    destruct (b <? BTP_MIN_BATTERY_LEVEL); [cbn in H; discriminate H |].
    unfold bind at 1 in H.
    destruct (checkPaperStatus link w1) as [[|] w2] eqn:Ep; [| cbn in H; discriminate H].
    apply checkPaperStatus_true in Ep as (Hw2 & _).
    cbn [negb] in H. unfold bind at 1 in H.
    destruct (sendAndReceive link (buildPrintReadyPacket (Z.of_nat dataSize) numCopies) w2)
      as [[r|] w3] eqn:Es; [| cbn in H; discriminate H].
    apply sendAndReceive_some in Es; [| exact (build_length (PrintReady _ _))].
    subst w3. cbn [negb] in H.
    destruct (pr_ret (parseResponse r true false)); [| cbn in H; discriminate H].
    cbn [negb] in H. unfold bind at 1 in H.
    destruct (transferImageData link data dataSize _) as [[|] w4] eqn:Et;
      [| cbn in H; discriminate H].
    cbn in H. injection H as <-.
    unfold transferImageData, bind at 1 in Et. rewrite isConnected_run in Et.
    destruct (is_connected (status _) && bt_present link && bt_connected link);
      cbn [negb] in Et; [| cbn in Et; discriminate Et].
    apply transfer_loop_true in Et; [| lia].
    destruct Et as (chunks & Hw4 & Hcat & Hall & _).
    exists chunks. rewrite Nat.sub_0_r in Hcat.
    split; [| split; assumption].
    rewrite Hw4. cbn. rewrite Hw2, Hw1, <- !app_assoc. reflexivity.
Qed.

Lemma printImage_validation_and_verbatim_transfer_witness :
  printImage (answering_link (reply 0 100)) None 0%nat 1 connected_world =
    (false, {| status := status connected_world;
               lastError := "Image data cannot be null"%string;
               writes := writes connected_world |}) /\
  exists chunks,
    writes (snd (printImage (answering_link (reply 0 100)) (Some [0; 0; 0]) 3 1
                   connected_world)) =
      writes connected_world ++
        [buildGetAccessoryInfoPacket false; buildGetPageTypePacket;
         buildPrintReadyPacket 3 1] ++ chunks /\
    List.concat chunks = firstn 3 [0; 0; 0] /\
    Forall (fun c => List.length c <= BTP_CHUNK_SIZE)%nat chunks.
Proof.
  split.
  - exact (proj1 printImage_validation_and_verbatim_transfer
                    (answering_link (reply 0 100)) connected_world None 0%nat 1
                    (or_introl eq_refl)).
  - apply (proj2 printImage_validation_and_verbatim_transfer
             (answering_link (reply 0 100)) connected_world
             (snd (printImage (answering_link (reply 0 100)) (Some [0; 0; 0]) 3 1
                     connected_world)) [0; 0; 0] 3%nat 1).
    vm_compute. reflexivity.
Defined.

(* ------------------------------------------------------------------ *)
(** ** Further properties of the protocol and driver code *)

Lemma print_count_table :
  forallb (fun a => forallb (fun b =>
    Z.land (Z.lor (Z.shiftl (Z.of_nat a) 8) (Z.of_nat b)) 0xFFFF =?
    256 * Z.of_nat a + Z.of_nat b) (seq 0 256)) (seq 0 256) = true.
Proof. vm_compute. reflexivity. Qed.

(** [parsePrintCount] decodes bytes 8-9 of a response as a big-endian
    16-bit number. *)
Theorem parsePrintCount_big_endian (response : list Z) :
  0 <= at_ response 8 < 256 -> 0 <= at_ response 9 < 256 ->
  parsePrintCount response = 256 * at_ response 8 + at_ response 9.
Proof.
  intros H8 H9. unfold parsePrintCount.
  pose proof print_count_table as T.
  rewrite forallb_forall in T.
  specialize (T (Z.to_nat (at_ response 8))).
  rewrite in_seq in T. specialize (T ltac:(lia)).
  rewrite forallb_forall in T.
  specialize (T (Z.to_nat (at_ response 9))).
  rewrite in_seq in T. specialize (T ltac:(lia)).
  rewrite !Z2Nat.id in T by lia.
  now apply Z.eqb_eq in T.
Qed.

Lemma parsePrintCount_big_endian_witness :
  parsePrintCount (reply 0 0 ++ []) = 0 /\
  parsePrintCount (magic ++ [0; 0; 0; 0; 0x01; 0x2C] ++ repeat 0 24) = 300.
Proof.
  split.
  - rewrite (parsePrintCount_big_endian (reply 0 0 ++ [])) by (vm_compute; split; congruence).
    reflexivity.
  - rewrite (parsePrintCount_big_endian (magic ++ [0; 0; 0; 0; 0x01; 0x2C] ++ repeat 0 24))
      by (vm_compute; split; congruence).
    reflexivity.
Defined.

(** Every packet the builders produce passes the header check of
    [parseResponse], which then reports its byte 8; in particular an
    ErrorMessage acknowledgement for code [ec] parses back to [ec], as a
    success exactly when [ec] is 0. *)
Theorem parseResponse_of_built_packets :
  (forall c, pr_errorCode (parseResponse (build c) true false) = Some (at_ (build c) 8)) /\
  (forall ec,
     pr_errorCode (parseResponse (buildErrorMessageAck ec) true false) = Some ec /\
     pr_ret (parseResponse (buildErrorMessageAck ec) true false) = (ec =? BTP_ERR_SUCCESS)).
Proof.
  split.
  - intros c; destruct c; reflexivity.
  - intros ec; split; reflexivity.
Qed.

Lemma error_string_table :
  forallb (fun n => Bool.eqb (String.eqb (getErrorString (Z.of_nat n)) "Unknown error")
                             (negb (known_error_code (Z.of_nat n))))
          (seq 0 256) = true.
Proof. vm_compute. reflexivity. Qed.

Lemma error_strings_distinct :
  forallb (fun a => forallb (fun b =>
     Nat.eqb a b || negb (String.eqb (getErrorString (Z.of_nat a)) (getErrorString (Z.of_nat b))))
     (filter (fun n => known_error_code (Z.of_nat n)) (seq 0 256)))
     (filter (fun n => known_error_code (Z.of_nat n)) (seq 0 256)) = true.
Proof. vm_compute. reflexivity. Qed.

(** For every byte value, [getErrorString] gives "Unknown error" exactly
    when the code is none of 0x00-0x09 and 0xFE, and the eleven defined
    codes have pairwise different messages. *)
Theorem getErrorString_unknown_iff (x y : Z) :
  0 <= x < 256 -> 0 <= y < 256 ->
  (getErrorString x = "Unknown error"%string <-> known_error_code x = false) /\
  (known_error_code x = true -> known_error_code y = true ->
   getErrorString x = getErrorString y -> x = y).
Proof.
  intros Hx Hy. split.
  - pose proof error_string_table as T. rewrite forallb_forall in T.
    specialize (T (Z.to_nat x)). rewrite in_seq in T. specialize (T ltac:(lia)).
    rewrite Z2Nat.id in T by lia.
    apply Bool.eqb_prop in T.
    split; intros H.
    + rewrite H in T. cbn in T. now apply negb_sym in T.
    + rewrite H in T. cbn in T. now apply String.eqb_eq.
  - intros Kx Ky E.
    pose proof error_strings_distinct as T. rewrite forallb_forall in T.
    specialize (T (Z.to_nat x)). rewrite filter_In, in_seq, Z2Nat.id in T by lia.
    assert (Hx' : (0 <= Z.to_nat x < 0 + 256)%nat) by lia.
    assert (Hy' : (0 <= Z.to_nat y < 0 + 256)%nat) by lia.
    specialize (T (conj Hx' Kx)). rewrite forallb_forall in T.
    specialize (T (Z.to_nat y)). rewrite filter_In, in_seq, Z2Nat.id in T by lia.
    specialize (T (conj Hy' Ky)).
    rewrite E, String.eqb_refl in T. cbn in T.
    rewrite orb_false_r in T. apply Nat.eqb_eq in T. lia.
Qed.

Lemma getErrorString_unknown_iff_witness :
  getErrorString 0x0A = "Unknown error"%string.
Proof.
  apply (proj2 (proj1 (getErrorString_unknown_iff 0x0A 0 ltac:(lia) ltac:(lia)))).
  reflexivity.
Defined.

(** [initialize] on a connected printer whose GetAccessoryInfo query gets a
    reply with the magic header: it writes exactly that query, records
    byte 8 of the reply as [error_code], and succeeds iff byte 8 is 0 —
    any non-zero code, NoPaper (0x02) included, fails with the code's
    message.  Only a success caches the requested slim flag. *)
Theorem initialize_reply (link : Link) (w w1 : World) (isSlim : bool) (r : list Z) :
  fst (isConnected link w) = true ->
  sendAndReceive link (buildGetAccessoryInfoPacket isSlim) w = (Some r, w1) ->
  firstn 4 r = magic ->
  exists w',
    initialize link isSlim w = (at_ r 8 =? 0, w') /\
    writes w' = writes w ++ [buildGetAccessoryInfoPacket isSlim] /\
    error_code (status w') = at_ r 8 /\
    is_slim_device (status w') =
      (if at_ r 8 =? 0 then isSlim else is_slim_device (status w)) /\
    (at_ r 8 <> 0 -> lastError w' = substring 0 127 (getErrorString (at_ r 8))).
Proof.
  intros Hc Hs Hm.
  pose proof (sendAndReceive_some _ _ _ _ _ (build_length (GetAccessoryInfo isSlim)) Hs)
    as Hw1.
  rewrite isConnected_run in Hc; cbn in Hc.
  unfold initialize, bind at 1. rewrite isConnected_run, Hc. cbn [negb].
  unfold bind at 1. rewrite Hs. subst w1.
  destruct r as [|b0 [|b1 [|b2 [|b3 rest]]]]; try discriminate Hm.
  cbn in Hm. injection Hm as -> -> -> ->.
  unfold parseResponse, at_; cbn [nth negb orb Z.eqb].
  cbn - [getErrorString substring].
  unfold BTP_ERR_SUCCESS. destruct (nth 4 rest 0 =? 0) eqn:E; cbn.
  - apply Z.eqb_eq in E. eexists; split; [reflexivity |]. cbn.
    repeat split; auto. intros H; contradiction.
  - apply Z.eqb_neq in E. eexists; split; [reflexivity |]. cbn. auto.
Qed.

Lemma initialize_reply_witness :
  exists w',
    initialize (answering_link (reply 2 87)) false connected_world = (2 =? 0, w') /\
    writes w' = writes connected_world ++ [buildGetAccessoryInfoPacket false] /\
    error_code (status w') = 2 /\
    is_slim_device (status w') = (if 2 =? 0 then false else false) /\
    (2 <> 0 -> lastError w' = substring 0 127 (getErrorString 2)).
Proof.
  apply (initialize_reply (answering_link (reply 2 87)) connected_world
           (snd (sendAndReceive (answering_link (reply 2 87))
                   (buildGetAccessoryInfoPacket false) connected_world))
           false (reply 2 87)).
  - reflexivity.
  - vm_compute. reflexivity.
  - reflexivity.
Defined.

(** After [disconnect], the driver reports not connected, a second
    [disconnect] changes nothing, and [initialize] and [printImage] (with
    an acceptable size) fail with "Not connected to printer" without
    writing to the transport. *)
Theorem disconnect_then_refuse (link : Link) (w : World) (data : list Z)
    (dataSize : nat) (numCopies : Z) (isSlim : bool) :
  (0 < dataSize <= BTP_MAX_IMAGE_SIZE)%nat ->
  let w1 := snd (disconnect link w) in
  fst (isConnected link w1) = false /\
  disconnect link w1 = (tt, w1) /\
  writes w1 = writes w /\
  initialize link isSlim w1 =
    (false, {| status := status w1; lastError := "Not connected to printer"%string;
               writes := writes w |}) /\
  printImage link (Some data) dataSize numCopies w1 =
    (false, {| status := status w1; lastError := "Not connected to printer"%string;
               writes := writes w |}).
Proof.
  intros Hsz w1.
  assert (Hd : is_connected (status w1) && bt_present link = false /\ writes w1 = writes w).
  { subst w1. unfold disconnect, bind, get, set_status, put, ret.
    destruct (bt_present link); cbn; destruct (is_connected (status w)) eqn:E; cbn;
      rewrite ?andb_false_r, ?andb_true_r, ?E; auto. }
  destruct Hd as [Hd Hw].
  assert (Hc : isConnected link w1 = (false, w1)).
  { rewrite isConnected_run, Hd. reflexivity. }
  split; [rewrite Hc; reflexivity |].
  split.
  { unfold disconnect, bind at 1, get. cbn beta iota.
    rewrite andb_comm, Hd. reflexivity. }
  split; [exact Hw |].
  split.
  - unfold initialize, bind at 1. rewrite Hc. cbn. rewrite Hw. reflexivity.
  - unfold printImage.
    replace ((dataSize =? 0)%nat) with false by (symmetry; apply Nat.eqb_neq; lia).
    replace ((BTP_MAX_IMAGE_SIZE <? dataSize)%nat) with false
      by (symmetry; apply Nat.ltb_ge; lia).
    unfold bind at 1. rewrite Hc. cbn. rewrite Hw. reflexivity.
Qed.

Lemma disconnect_then_refuse_witness :
  fst (isConnected (answering_link (reply 0 90))
         (snd (disconnect (answering_link (reply 0 90)) connected_world))) = false.
Proof.
  refine (proj1 (disconnect_then_refuse (answering_link (reply 0 90)) connected_world
                   [0xFF; 0xD8; 0xFF; 0xD9] 4 1 false _)).
  unfold BTP_MAX_IMAGE_SIZE; lia.
Defined.

Lemma chunk_count_step (r : nat) :
  (0 < r)%nat ->
  ((r + 4095) / 4096 =
   S ((r - (if (r <? 4096)%nat then r else 4096) + 4095) / 4096))%nat.
Proof.
  intros Hr. destruct (Nat.ltb_spec r 4096) as [Hlt|Hge].
  - replace (r - r + 4095)%nat with 4095%nat by lia.
    rewrite (Nat.div_small 4095 4096) by lia.
    symmetry. apply (Nat.div_unique _ _ _ (r - 1)); lia.
  - replace (r + 4095)%nat with ((r - 4096 + 4095) + 1 * 4096)%nat by lia.
    rewrite Nat.div_add by lia. lia.
Qed.

(** On a link that accepts every write in full, the chunk loop from
    [offset] completes and writes [ceil((size - offset) / 4096)] chunks,
    all but the last of exactly 4096 bytes, together the bytes from
    [offset] to [size]. *)
Lemma transfer_loop_reliable (link : Link) (data : list Z) (size : nat) :
  bt_present link = true ->
  (forall l, bt_write link l = List.length l) ->
  (size <= List.length data)%nat ->
  forall fuel offset w,
  (size - offset <= fuel)%nat -> (offset <= size)%nat ->
  exists chunks,
    transfer_loop link fuel data size offset w =
      (true, {| status := status w; lastError := lastError w;
                writes := writes w ++ chunks |}) /\
    List.length chunks = ((size - offset + 4095) / 4096)%nat /\
    Forall (fun c => List.length c = BTP_CHUNK_SIZE) (removelast chunks) /\
    List.concat chunks = firstn (size - offset) (skipn offset data).
Proof.
  intros Hp Hwr Hlen.
  induction fuel as [|fuel IH]; intros offset w Hf Ho.
  - exists []. replace (size - offset)%nat with O by lia.
    destruct w; cbn. rewrite app_nil_r. auto.
  - cbn [transfer_loop].
    destruct (Nat.ltb_spec offset size) as [Hlt|Hge].
    2:{ exists []. replace (size - offset)%nat with O by lia.
        destruct w; cbn. rewrite app_nil_r. auto. }
    set (chunk := if (size - offset <? BTP_CHUNK_SIZE)%nat then (size - offset)%nat
                  else BTP_CHUNK_SIZE).
    assert (Hc : (chunk <= size - offset /\ chunk <= BTP_CHUNK_SIZE /\ 0 < chunk /\
                  (chunk < BTP_CHUNK_SIZE -> chunk = size - offset))%nat).
    { subst chunk. unfold BTP_CHUNK_SIZE.
      destruct (Nat.ltb_spec (size - offset) 4096); lia. }
    assert (Hwl : bt_write link (firstn chunk (skipn offset data)) = chunk).
    { rewrite Hwr, length_firstn, length_skipn. lia. }
    unfold bind at 1, sendCommand. rewrite Hp. cbn [negb andb orb].
    unfold bind, log_write, get, put, ret. cbn beta iota zeta.
    rewrite ?firstn_firstn, ?Nat.min_id, Hwl, Nat.eqb_refl. cbn [negb].
    rewrite ?firstn_firstn, ?Nat.min_id.
    destruct (IH (offset + chunk)%nat
                {| status := status w; lastError := lastError w;
                   writes := writes w ++ [firstn chunk (skipn offset data)] |})
      as (chunks & Hrun & Hn & Hall & Hcat); [lia | lia |].
    exists (firstn chunk (skipn offset data) :: chunks).
    unfold bind; cbn beta iota zeta. cbn [negb]. rewrite Hrun.
    cbn [writes status lastError]. rewrite <- app_assoc. split; [reflexivity |].
    split; [| split].
    + cbn [List.length]. rewrite Hn. unfold chunk, BTP_CHUNK_SIZE.
      rewrite (chunk_count_step (size - offset)) by lia.
      f_equal. f_equal. f_equal. lia.
    + destruct chunks as [|c rest]; [constructor |].
      constructor; [| exact Hall].
      rewrite length_firstn, length_skipn.
      assert (size - (offset + chunk) > 0)%nat.
      { destruct (Nat.eq_dec (size - (offset + chunk)) 0) as [E|E]; [| lia].
        rewrite E in Hn. cbn in Hn. discriminate Hn. }
      destruct (Nat.eq_dec chunk BTP_CHUNK_SIZE); [lia |].
      exfalso. assert (chunk < BTP_CHUNK_SIZE)%nat by lia. lia.
    + cbn [List.concat]. rewrite Hcat.
      replace (skipn (offset + chunk) data) with (skipn chunk (skipn offset data))
        by (rewrite skipn_skipn; f_equal; lia).
      rewrite <- firstn_plus. f_equal. lia.
Qed.

(** On a link that is up and takes every write in full, a query gets the
    answer the link gives to the history ending in the query. *)
Lemma sendAndReceive_reliable (link : Link) (cmd r : list Z) (w : World) :
  bt_present link = true -> bt_connected link = true ->
  (forall l, bt_write link l = List.length l) ->
  bt_answer link (writes w ++ [cmd]) = Some r ->
  List.length cmd = BTP_PACKET_SIZE ->
  sendAndReceive link cmd w =
    (Some r, {| status := status w; lastError := lastError w; writes := writes w ++ [cmd] |}).
Proof.
  intros Hp Hc Hwr Ha Hlen.
  unfold sendAndReceive, sendCommand, receiveResponse, bind, ret, log_write, get, put.
  rewrite <- Hlen, firstn_all, Hp, Hc. cbn.
  rewrite Hwr, firstn_all, Nat.eqb_refl. cbn.
  rewrite Ha. reflexivity.
Qed.

Lemma parseResponse_success (r : list Z) :
  firstn 4 r = magic -> at_ r 8 = 0 ->
  parseResponse r true false = {| pr_errorCode := Some 0; pr_dataOut := None; pr_ret := true |}.
Proof.
  intros Hm H8.
  destruct r as [|b0 [|b1 [|b2 [|b3 rest]]]]; try discriminate Hm.
  cbn in Hm. injection Hm as -> -> -> ->.
  unfold parseResponse. rewrite H8. reflexivity.
Qed.

Lemma parseResponse_failure (r : list Z) :
  firstn 4 r = magic -> at_ r 8 <> 0 ->
  parseResponse r true false =
    {| pr_errorCode := Some (at_ r 8); pr_dataOut := None; pr_ret := false |}.
Proof.
  intros Hm H8.
  destruct r as [|b0 [|b1 [|b2 [|b3 rest]]]]; try discriminate Hm.
  cbn in Hm. injection Hm as -> -> -> ->.
  unfold parseResponse. cbn -[at_]. unfold BTP_ERR_SUCCESS.
  apply Z.eqb_neq in H8. rewrite H8. reflexivity.
Qed.

(** A print on a connected printer whose link is up, takes every write
    in full and answers every query with a success reply (magic header,
    byte 8 = 0) reporting a battery of at least 30 succeeds for every
    acceptable size: it sends the battery query, the page-type query and
    PrintReady, then [ceil(dataSize / 4096)] chunks, all but the last of
    exactly 4096 bytes, which together are the first [dataSize] bytes. *)
Theorem printImage_succeeds (link : Link) (r : list Z) (w : World) (data : list Z)
    (dataSize : nat) (numCopies : Z) :
  bt_present link = true -> bt_connected link = true ->
  (forall l, bt_write link l = List.length l) ->
  (forall h, bt_answer link h = Some r) ->
  firstn 4 r = magic -> at_ r 8 = 0 -> BTP_MIN_BATTERY_LEVEL <= at_ r 12 ->
  is_connected (status w) = true ->
  (0 < dataSize <= BTP_MAX_IMAGE_SIZE)%nat -> (dataSize <= List.length data)%nat ->
  exists w' chunks,
    printImage link (Some data) dataSize numCopies w = (true, w') /\
    writes w' = writes w ++
      [buildGetAccessoryInfoPacket (is_slim_device (status w)); buildGetPageTypePacket;
       buildPrintReadyPacket (Z.of_nat dataSize) numCopies] ++ chunks /\
    List.length chunks = ((dataSize + 4095) / 4096)%nat /\
    Forall (fun c => List.length c = BTP_CHUNK_SIZE) (removelast chunks) /\
    List.concat chunks = firstn dataSize data /\
    battery_level (status w') = at_ r 12.
Proof.
  intros Hp Hc Hwr Ha Hm H8 Hbat Hic Hsz Hlen.
  assert (SR : forall cmd w0, List.length cmd = BTP_PACKET_SIZE ->
            sendAndReceive link cmd w0 =
            (Some r, {| status := status w0; lastError := lastError w0;
                        writes := writes w0 ++ [cmd] |}))
    by (intros; apply sendAndReceive_reliable; auto).
  assert (Hconn : forall w0, is_connected (status w0) = true ->
            isConnected link w0 = (true, w0))
    by (intros w0 H; rewrite isConnected_run, H, Hp, Hc; reflexivity).
  unfold printImage.
  replace ((dataSize =? 0)%nat) with false by (symmetry; apply Nat.eqb_neq; lia).
  replace ((BTP_MAX_IMAGE_SIZE <? dataSize)%nat) with false
    by (symmetry; apply Nat.ltb_ge; lia).
  unfold bind at 1. rewrite (Hconn w Hic). cbn [negb].
  (* battery refresh *)
  unfold bind at 1. unfold getBatteryLevel at 1, bind at 1. rewrite (Hconn w Hic).
  cbn [negb]. unfold bind at 1, get. cbn beta iota zeta.
  unfold bind at 1.
  rewrite SR by exact (build_length (GetAccessoryInfo _)).
  cbn beta iota zeta. unfold bind at 1, set_status, bind at 1, get, put, ret.
  cbn beta iota zeta.
  replace (at_ r 12 <? BTP_MIN_BATTERY_LEVEL) with false
    by (symmetry; apply Z.ltb_ge; exact Hbat).
  (* paper check *)
  unfold bind at 1. unfold checkPaperStatus at 1, bind at 1.
  rewrite Hconn by exact Hic. cbn [negb].
  unfold bind at 1. rewrite SR by exact (build_length GetPageType).
  cbn beta iota zeta. rewrite parseResponse_success by assumption. cbn [pr_ret negb].
  unfold ret at 1. cbn beta iota.
  (* PrintReady *)
  cbn [negb]. unfold bind at 1. rewrite SR by exact (build_length (PrintReady _ _)).
  cbn beta iota zeta. rewrite parseResponse_success by assumption. cbn [pr_ret negb].
  (* transfer *)
  unfold bind at 1. unfold transferImageData at 1, bind at 1.
  rewrite Hconn by exact Hic. cbn [negb status lastError writes].
  destruct (transfer_loop_reliable link data dataSize Hp Hwr Hlen dataSize 0
              {| status := set_battery_level (at_ r 12) (status w);
                 lastError := lastError w;
                 writes := ((writes w ++ [buildGetAccessoryInfoPacket (is_slim_device (status w))])
                             ++ [buildGetPageTypePacket])
                             ++ [buildPrintReadyPacket (Z.of_nat dataSize) numCopies] |})
    as (chunks & Hrun & Hn & Hall & Hcat); [lia | lia |].
  rewrite Hrun. cbn.
  eexists; exists chunks. split; [reflexivity |]. cbn.
  rewrite Nat.sub_0_r in Hn, Hcat. cbn in Hcat.
  rewrite <- !app_assoc. cbn. auto.
Qed.

(** When the printer accepts the battery and page-type queries but
    answers PrintReady with a nonzero error byte [e], the print fails
    before any image byte is sent: the three query packets are the only
    writes, the status keeps [e] as its error code and the last error is
    the text [getErrorString] gives for [e]. *)
Theorem printImage_print_ready_error (link : Link) (r1 r2 : list Z) (w : World)
    (data : list Z) (dataSize : nat) (numCopies : Z) :
  bt_present link = true -> bt_connected link = true ->
  (forall l, bt_write link l = List.length l) ->
  (forall h, bt_answer link h =
     Some (if (List.length h <=? List.length (writes w) + 2)%nat then r1 else r2)) ->
  firstn 4 r1 = magic -> at_ r1 8 = 0 -> BTP_MIN_BATTERY_LEVEL <= at_ r1 12 ->
  firstn 4 r2 = magic -> at_ r2 8 <> 0 ->
  is_connected (status w) = true ->
  (0 < dataSize <= BTP_MAX_IMAGE_SIZE)%nat ->
  printImage link (Some data) dataSize numCopies w =
    (false,
     {| status := set_error_code (at_ r2 8) (set_battery_level (at_ r1 12) (status w));
        lastError := substring 0 127 (getErrorString (at_ r2 8));
        writes := writes w ++
          [buildGetAccessoryInfoPacket (is_slim_device (status w)); buildGetPageTypePacket;
           buildPrintReadyPacket (Z.of_nat dataSize) numCopies] |}).
Proof.
  intros Hp Hc Hwr Ha Hm1 H81 Hbat Hm2 H82 Hic Hsz.
  assert (SR : forall cmd w0 r, List.length cmd = BTP_PACKET_SIZE ->
            bt_answer link (writes w0 ++ [cmd]) = Some r ->
            sendAndReceive link cmd w0 =
            (Some r, {| status := status w0; lastError := lastError w0;
                        writes := writes w0 ++ [cmd] |}))
    by (intros; apply sendAndReceive_reliable; auto).
  assert (Hconn : forall w0, is_connected (status w0) = true ->
            isConnected link w0 = (true, w0))
    by (intros w0 H; rewrite isConnected_run, H, Hp, Hc; reflexivity).
  assert (Hans : forall l, bt_answer link (writes w ++ l) =
            Some (if (List.length l <=? 2)%nat then r1 else r2)).
  { intros l. rewrite Ha, length_app.
    destruct (Nat.leb_spec (List.length l) 2);
      destruct (Nat.leb_spec (List.length (writes w) + List.length l)
                             (List.length (writes w) + 2)); first [reflexivity | lia]. }
  unfold printImage.
  replace ((dataSize =? 0)%nat) with false by (symmetry; apply Nat.eqb_neq; lia).
  replace ((BTP_MAX_IMAGE_SIZE <? dataSize)%nat) with false
    by (symmetry; apply Nat.ltb_ge; lia).
  unfold bind at 1. rewrite (Hconn w Hic). cbn [negb].
  unfold bind at 1. unfold getBatteryLevel at 1, bind at 1. rewrite (Hconn w Hic).
  cbn [negb]. unfold bind at 1, get. cbn beta iota zeta.
  unfold bind at 1. rewrite (SR _ _ r1) by (exact (build_length (GetAccessoryInfo _))
                                            || exact (Hans _)).
  cbn beta iota zeta. unfold bind at 1, set_status, bind at 1, get, put, ret.
  cbn beta iota zeta.
  replace (at_ r1 12 <? BTP_MIN_BATTERY_LEVEL) with false
    by (symmetry; apply Z.ltb_ge; exact Hbat).
  unfold bind at 1. unfold checkPaperStatus at 1, bind at 1.
  rewrite Hconn by exact Hic. cbn [negb].
  unfold bind at 1. rewrite (SR _ _ r1) by (exact (build_length GetPageType)
    || (cbn [writes]; rewrite <- app_assoc; exact (Hans _))).
  cbn beta iota zeta. rewrite parseResponse_success by assumption. cbn [pr_ret negb].
  unfold ret at 1. cbn beta iota. cbn [negb].
  unfold bind at 1. rewrite (SR _ _ r2) by (exact (build_length (PrintReady _ _))
    || (cbn [writes]; rewrite <- !app_assoc; exact (Hans _))).
  cbn beta iota zeta. rewrite parseResponse_failure by assumption.
  cbn [pr_ret pr_errorCode negb].
  unfold setError, set_status, bind, get, put, ret. cbn.
  rewrite <- !app_assoc. reflexivity.
Qed.

Lemma printImage_succeeds_witness :
  exists w' chunks,
    printImage (answering_link (reply 0 100)) (Some (repeat 0 5000)) 5000 1
      connected_world = (true, w') /\
    writes w' = writes connected_world ++
      [buildGetAccessoryInfoPacket (is_slim_device (status connected_world));
       buildGetPageTypePacket; buildPrintReadyPacket (Z.of_nat 5000) 1] ++ chunks /\
    List.length chunks = ((5000 + 4095) / 4096)%nat /\
    Forall (fun c => List.length c = BTP_CHUNK_SIZE) (removelast chunks) /\
    List.concat chunks = firstn 5000 (repeat 0 5000) /\
    battery_level (status w') = at_ (reply 0 100) 12.
Proof.
  apply (printImage_succeeds (answering_link (reply 0 100)) (reply 0 100)
           connected_world (repeat 0 5000) 5000 1).
  1-6: first [reflexivity | intros; reflexivity].
  - vm_compute; congruence.
  - reflexivity.
  - unfold BTP_MAX_IMAGE_SIZE; lia.
  - rewrite repeat_length; lia.
Defined.

Lemma printImage_print_ready_error_witness :
  printImage
    {| bt_present := true; bt_connected := true;
       bt_write := fun l => List.length l;
       bt_answer := fun h => Some (if (List.length h <=? 2)%nat
                                   then reply 0 100 else reply 4 100) |}
    (Some [0xFF; 0xD8; 0xFF; 0xD9]) 4 1 connected_world =
    (false,
     {| status := set_error_code (at_ (reply 4 100) 8)
                    (set_battery_level (at_ (reply 0 100) 12) (status connected_world));
        lastError := substring 0 127 (getErrorString (at_ (reply 4 100) 8));
        writes := writes connected_world ++
          [buildGetAccessoryInfoPacket (is_slim_device (status connected_world));
           buildGetPageTypePacket; buildPrintReadyPacket (Z.of_nat 4) 1] |}).
Proof.
  apply (printImage_print_ready_error _ (reply 0 100) (reply 4 100));
    first [reflexivity | intros; reflexivity | unfold BTP_MAX_IMAGE_SIZE; lia
          | vm_compute; congruence].
Defined.

(** A reply whose first four bytes are not the magic header is rejected
    by [parseResponse] with the not-connected error code. *)
Lemma parseResponse_bad_header (r : list Z) :
  firstn 4 r <> magic ->
  parseResponse r true false =
    {| pr_errorCode := Some BTP_ERR_NOT_CONNECTED; pr_dataOut := None; pr_ret := false |}.
Proof.
  intros Hm. unfold parseResponse. cbn [negb].
  destruct (negb (at_ r 0 =? BTP_START_1) || negb (at_ r 1 =? BTP_START_2) ||
            negb (at_ r 2 =? BTP_IDENT_1) || negb (at_ r 3 =? BTP_IDENT_2)) eqn:E;
    [reflexivity | exfalso; apply Hm].
  rewrite !orb_false_iff, !negb_false_iff, !Z.eqb_eq in E.
  destruct E as [[[E0 E1] E2] E3].
  destruct r as [|b0 [|b1 [|b2 [|b3 rest]]]]; cbn in E0, E1, E2, E3;
    unfold BTP_START_1, BTP_START_2, BTP_IDENT_1, BTP_IDENT_2 in *;
    try discriminate; subst; reflexivity.
Qed.

(** [checkPaperStatus], connected and answered with [r], succeeds exactly
    when [r] starts with the magic header and has status byte 8 = 0.
    Otherwise it fails with the error code of the reply, or with
    [BTP_ERR_NOT_CONNECTED] when the header is wrong, stored in the status
    and described in the last error. *)
Theorem checkPaperStatus_reply (link : Link) (w w1 : World) (r : list Z) :
  fst (isConnected link w) = true ->
  sendAndReceive link buildGetPageTypePacket w = (Some r, w1) ->
  let e := if list_eq_dec Z.eq_dec (firstn 4 r) magic then at_ r 8
           else BTP_ERR_NOT_CONNECTED in
  checkPaperStatus link w =
    if e =? BTP_ERR_SUCCESS then (true, w1)
    else (false, {| status := set_error_code e (status w1);
                    lastError := substring 0 127 (getErrorString e);
                    writes := writes w1 |}).
Proof.
  intros Hc Hs e.
  rewrite isConnected_run in Hc; cbn in Hc.
  unfold checkPaperStatus, bind at 1. rewrite isConnected_run, Hc. cbn [negb].
  unfold bind at 1. rewrite Hs. cbn beta iota zeta.
  subst e. unfold BTP_ERR_SUCCESS.
  destruct (list_eq_dec Z.eq_dec (firstn 4 r) magic) as [Hm|Hm].
  - destruct (Z.eqb_spec (at_ r 8) 0) as [H8|H8].
    + rewrite parseResponse_success by assumption. reflexivity.
    + rewrite parseResponse_failure by assumption. reflexivity.
  - rewrite parseResponse_bad_header by assumption. reflexivity.
Qed.

Lemma checkPaperStatus_reply_witness :
  checkPaperStatus (answering_link [0x1B; 0x2A; 0x43; 0x42]) connected_world =
    (false,
     {| status := set_error_code BTP_ERR_NOT_CONNECTED (status connected_world);
        lastError := substring 0 127 (getErrorString BTP_ERR_NOT_CONNECTED);
        writes := writes connected_world ++ [buildGetPageTypePacket] |}).
Proof.
  pose proof (checkPaperStatus_reply (answering_link [0x1B; 0x2A; 0x43; 0x42])
           connected_world
           {| status := status connected_world; lastError := lastError connected_world;
              writes := writes connected_world ++ [buildGetPageTypePacket] |}
           [0x1B; 0x2A; 0x43; 0x42] eq_refl ltac:(vm_compute; reflexivity)) as H.
  cbv zeta in H. rewrite H. vm_compute. reflexivity.
Defined.
